(** * Price normalisation, trend analysis and investment recommendations

    A shallow embedding of the cryptocurrency tracker: [Crypto.get_prices]
    and [Crypto.suggest_investments] of the main module and
    [TrendAnalyzer.analyze_trends] of [modules/trend_analyzer.py].

    Numbers.  Prices live in a pandas column of dtype float64 and every
    arithmetic step of the analyzer is an IEEE 754 binary64 operation on
    numpy scalars, so prices are Rocq's primitive [float].  In particular a
    division by zero does not raise: numpy emits a warning and returns an
    infinity or NaN, which is what [PrimFloat.div] computes.

    Timestamps and dates.  A raw sample carries an integer number of
    milliseconds since the epoch.  [datetime.fromtimestamp(ts / 1000).date()]
    is the calendar day of that instant in the local zone; the zone is a
    fixed offset [utc_offset] (seconds east of UTC) and a date is the number
    of days since 1970-01-01.

    Dictionaries.  Python dictionaries keep insertion order and the
    recommendation list follows it, so a dictionary is an association list
    whose [Dict.set] overwrites in place or appends. *)

From Stdlib Require Import ZArith List Bool String Floats Lia Sorted.
From Stdlib Require Uint63.
Import ListNotations.

Set Warnings "-inexact-float".

(** ** Floating point helpers *)

Module F.
Open Scope float_scope.

(** [len] of a column as a float, the divisor of a mean. *)
Definition of_nat (n : nat) : float := PrimFloat.of_uint63 (Uint63.of_Z (Z.of_nat n)).

(** The sum of a column, its values added left to right, which is how
    numpy adds fewer than eight values.  (numpy adds a longer column in
    interleaved blocks; for such a column the sum here can differ from
    numpy's in the last bits.) *)
Definition sum (xs : list float) : float := fold_left PrimFloat.add xs 0.

(** [ndarray.mean()]. *)
Definition mean (xs : list float) : float := sum xs / of_nat (List.length xs).

(** pandas' [notna] on a float: everything but NaN. *)
Definition notna (x : float) : bool := negb (PrimFloat.is_nan x).

(** A float is non-finite when it is an infinity or NaN. *)
Definition non_finite (x : float) : Prop :=
  x = infinity \/ x = neg_infinity \/ x = nan.

(** [assertAlmostEqual(x, y, places)] with [tol = 0.5 * 10^-places]. *)
Definition almost_equal (x y tol : float) : bool := PrimFloat.abs (x - y) <? tol.
End F.

(** ** Insertion-ordered dictionaries with string keys *)

Module Dict.
Section Defs.
Variable V : Type.

Definition t := list (string * V).

Definition empty : t := [].

Fixpoint get (k : string) (d : t) : option V :=
  match d with
  | [] => None
  | (k', v) :: rest => if String.eqb k k' then Some v else get k rest
  end.

(** [d[k] = v]: an existing key keeps its position, a new one goes last. *)
Fixpoint set (k : string) (v : V) (d : t) : t :=
  match d with
  | [] => [(k, v)]
  | (k', v') :: rest =>
      if String.eqb k k' then (k, v) :: rest else (k', v') :: set k v rest
  end.

Definition keys (d : t) : list string := map fst d.

(** [d.items()], in insertion order. *)
Definition items (d : t) : list (string * V) := d.
End Defs.

Arguments empty {V}.
Arguments get {V} k d.
Arguments set {V} k v d.
Arguments keys {V} d.
Arguments items {V} d.
End Dict.

(** ** Series normalisation: [Crypto.get_prices] *)

(** A row of the frame built with [columns=['date', 'price_usd']]. *)
Definition Row : Type := (Z * float)%type.
Definition DataFrame : Type := list Row.

Definition date (r : Row) : Z := fst r.
Definition price_usd (df : DataFrame) : list float := map snd df.

(** [df.drop_duplicates(subset=['date'], keep='last')]: a row is dropped when
    a later row has the same date; the remaining rows keep their order. *)
Fixpoint drop_duplicates_last (df : DataFrame) : DataFrame :=
  match df with
  | [] => []
  | r :: rest =>
      if existsb (fun r' => Z.eqb (date r') (date r)) rest
      then drop_duplicates_last rest
      else r :: drop_duplicates_last rest
  end.

(** What one request to the market-data service yields. *)
Inductive response : Type :=
| RequestFailed                          (* requests.RequestException *)
| NoPrices                               (* JSON without a 'prices' key *)
| Prices (samples : list (Z * float)).   (* data['prices'] *)


Section Normalizer.
(** Offset of the local zone, in seconds east of UTC. *)
Variable utc_offset : Z.

(** [datetime.fromtimestamp(ts / 1000).date()] as a day number, for a zone
    with one offset throughout and for timestamps within the years
    [datetime] can represent (outside them the call raises and the fetch is
    abandoned; a zone with daylight saving changes its offset twice a
    year). *)
Definition fromtimestamp_date (ts : Z) : Z :=
  ((ts + 1000 * utc_offset) / 86400000)%Z.

(** Midnight, local time, of a day: a timestamp of that date. *)
Definition midnight (d : Z) : Z := (d * 86400000 - 1000 * utc_offset)%Z.

(** The list comprehension [price_data]. *)
Definition price_data (samples : list (Z * float)) : DataFrame :=
  map (fun s => (fromtimestamp_date (fst s), snd s)) samples.

(** The frame stored for a coin whose payload has a 'prices' field. *)
Definition normalize (samples : list (Z * float)) : DataFrame :=
  drop_duplicates_last (price_data samples).

(** One iteration of the loop over [self.coin_names]. *)
Definition get_prices_step (prices : Dict.t DataFrame) (req : string * response)
  : Dict.t DataFrame :=
  match snd req with
  | Prices samples => Dict.set (fst req) (normalize samples) prices
  | NoPrices => prices
  | RequestFailed => prices
  end.

(** [get_prices]: the coins requested, each with the service's reply, give
    the new [self.prices_data]. *)
Definition get_prices (reqs : list (string * response)) : Dict.t DataFrame :=
  fold_left get_prices_step reqs Dict.empty.
End Normalizer.

(** ** Trend analysis: [TrendAnalyzer.analyze_trends] *)

(** The dictionary stored under each coin name. *)
Record Trend : Type := mkTrend {
  change_percentage : float;
  volatility : float;
  average_price : float
}.

Module Analyzer.
Open Scope float_scope.

(** [[(p[i] - p[i-1]) / p[i-1] for i in range(1, len(p))]]. *)
Fixpoint daily_changes (price_changes : list float) : list float :=
  match price_changes with
  | prev :: (cur :: _) as rest => (cur - prev) / prev :: daily_changes rest
  | _ => []
  end.

(** [pd.Series(xs).std()], with pandas' defaults [skipna=True] and
    [ddof=1]: NaN entries are missing values and are dropped, the mean of
    the [count] remaining ones is taken, and the squared deviations from it
    are summed and divided by [count - 1]; with fewer than two remaining
    values the result is NaN. *)
Definition Series_std (xs : list float) : float :=
  let values := filter F.notna xs in
  let count := List.length values in
  if (count <=? 1)%nat then nan
  else
    let avg := F.sum values / F.of_nat count in
    let sqr := map (fun x => (avg - x) * (avg - x)) values in
    PrimFloat.sqrt (F.sum sqr / F.of_nat (count - 1)).

(** The sample standard deviation in the words of the specification,
    for comparison with [Series_std]: the square root of the sum of the
    squared deviations from the mean of all [n] values, divided by
    [n - 1]. *)
Definition sample_std (xs : list float) : float :=
  let n := List.length xs in
  let mean := F.sum xs / F.of_nat n in
  PrimFloat.sqrt (F.sum (map (fun x => (mean - x) * (mean - x)) xs) / F.of_nat (n - 1)).

(** The body of the loop for one coin: [None] is the [continue] taken on
    an empty frame.  Frames come from [get_prices] and always have the
    column 'price_usd', so the [else] branch that only prints is never
    taken. *)
Definition analyze_frame (df : DataFrame) : option Trend :=
  match df with
  | [] => None
  | (_, first_price) :: _ =>
      let last_price := last (price_usd df) first_price in
      let change_percentage := ((last_price - first_price) / first_price) * 100 in
      let price_changes := price_usd df in
      let daily_changes := daily_changes price_changes in
      let volatility :=
        if (1 <? List.length daily_changes)%nat
        then Series_std daily_changes
        else 0 in
      let average_price := F.mean price_changes in
      Some (mkTrend change_percentage volatility average_price)
  end.

Definition analyze_step (trends : Dict.t Trend) (item : string * DataFrame)
  : Dict.t Trend :=
  match analyze_frame (snd item) with
  | None => trends
  | Some t => Dict.set (fst item) t trends
  end.

(** [analyze_trends]: the loop over [self.price_data.items()]. *)
Definition analyze_trends (price_data : Dict.t DataFrame) : Dict.t Trend :=
  fold_left analyze_step (Dict.items price_data) Dict.empty.
End Analyzer.

(** ** Recommendations: [Crypto.suggest_investments] *)

Module Rec.
(** An entry of the list [recommendations]. *)
Record t : Type := mk {
  coin : string;
  change_percentage : float;
  volatility : float;
  average_price : float
}.
End Rec.

Module Recommend.
Open Scope float_scope.

Definition of_trend (coin_name : string) (trend : Trend) : Rec.t :=
  Rec.mk coin_name (change_percentage trend) (volatility trend) (average_price trend).

(** The loop that appends a coin when [trend['change_percentage'] > 0]. *)
Fixpoint recommendations (trends : Dict.t Trend) : list Rec.t :=
  match trends with
  | [] => []
  | (coin_name, trend) :: rest =>
      if 0 <? change_percentage trend
      then of_trend coin_name trend :: recommendations rest
      else recommendations rest
  end.

(** The text printed after "Suggestion:" for a recommended coin. *)
Definition suggestion (rec : Rec.t) : string :=
  if 5 <? Rec.change_percentage rec
  then "High potential for growth!"%string
  else "Moderate growth expected."%string.

Section Pipeline.
Variable utc_offset : Z.

(** What [suggest_investments] returns; the prompts and prints in
    between do not change either component. *)
Definition suggest_investments (reqs : list (string * response))
  : Dict.t Trend * list Rec.t :=
  let prices_data := get_prices utc_offset reqs in
  let trends := Analyzer.analyze_trends prices_data in
  (trends, recommendations trends).
End Pipeline.
End Recommend.

(** ** Sample data from the unit tests *)

Module Samples.
Open Scope float_scope.

Definition bitcoin_prices : list float := [97077.22; 99807.41; 97779.31; 97343.92].

(** What the analyzer computes for it. *)
Definition bitcoin_trend : Trend :=
  mkTrend 0.27472974607224748 0.024697629915808143 98001.964999999997.

(** The first two days only. *)
Definition two_day_frame : DataFrame := [(20067%Z, 97077.22); (20068%Z, 99807.41)].

Definition two_day_trend : Trend := mkTrend 2.812389971612292 0 98442.315000000002.

(** A series whose price stays at zero on its last two days: its last
    daily change is [0 / 0]. *)
Definition stalled_frame : DataFrame :=
  [(0%Z, 1); (1%Z, 2); (2%Z, 4); (3%Z, 0); (4%Z, 0)].

(** A batch in which one series starts at price zero. *)
Definition zero_start_batch : Dict.t DataFrame :=
  [("zerocoin"%string, [(0%Z, 0); (1%Z, 1)]);
   ("bitcoin"%string, two_day_frame)].

(** The frame of [test_analyze_trends]; the analyzer never reads the dates. *)
Definition bitcoin_frame : DataFrame :=
  [(20067%Z, 97077.22); (20068%Z, 99807.41);
   (20067%Z, 97779.31); (20068%Z, 97343.92)].

(** The mocked payload of [test_get_prices]. *)
Definition bitcoin_payload : list (Z * float) :=
  [(1733832000000%Z, 97077.22); (1733918400000%Z, 99807.41);
   (1733832000000%Z, 97779.31); (1733918400000%Z, 97343.92)].
End Samples.

(** ** Order and overwriting, for statements about the loops *)

(** [Subseq l1 l2]: [l1] is [l2] with some elements left out, the others in
    their order. *)
Inductive Subseq {A : Type} : list A -> list A -> Prop :=
| Subseq_nil : Subseq [] []
| Subseq_skip (a : A) (l1 l2 : list A) : Subseq l1 l2 -> Subseq l1 (a :: l2)
| Subseq_keep (a : A) (l1 l2 : list A) : Subseq l1 l2 -> Subseq (a :: l1) (a :: l2).

(** The samples of the last reply for [coin_name] that has a 'prices'
    field, if there is one. *)
Fixpoint last_prices (coin_name : string) (reqs : list (string * response))
  : option (list (Z * float)) :=
  match reqs with
  | [] => None
  | (c, r) :: rest =>
      match last_prices coin_name rest with
      | Some samples => Some samples
      | None =>
          match r with
          | Prices samples => if String.eqb coin_name c then Some samples else None
          | _ => None
          end
      end
  end.

(** ** Persistence: [modules/database_creation.py]

    The file [crypto_data.db] holds the tables [prices] and [trends], each
    absent until created.  The states modelled are those of an SQLite
    database file in which nothing but these two tables is ever named
    [prices] or [trends]; a file that is no database, or one with a view of
    such a name, is outside the type [db].  A row's [id] is the integer
    primary key SQLite assigns on insertion: one more than the largest id in
    the table.  A REAL cell holds a number or NULL: SQLite stores a bound
    NaN as NULL and either zero as [+0.0].  The text ['%Y-%m-%d'] of a date
    is represented by the date itself. *)

Module Database.

Definition real : Type := option float.

Definition bind_double (x : float) : real :=
  if PrimFloat.is_nan x then None
  else if PrimFloat.eqb x 0 then Some 0%float
  else Some x.

Record price_row : Type := mkPrice {
  price_id : Z;
  price_coin_name : string;
  price_date : Z;
  price_price_usd : real
}.

Record trend_row : Type := mkTrendRow {
  trend_id : Z;
  trend_coin_name : string;
  trend_change_percentage : real;
  trend_volatility : real
}.

Record db : Type := mkDb {
  prices : option (list price_row);
  trends : option (list trend_row)
}.

(** A row without its id: the columns the code writes. *)
Definition price_values (r : price_row) : string * Z * real :=
  (price_coin_name r, price_date r, price_price_usd r).

Definition trend_values (r : trend_row) : string * real * real :=
  (trend_coin_name r, trend_change_percentage r, trend_volatility r).

(** The ids [1, 2, ..., n]. *)
Definition rowids (n : nat) : list Z := map Z.of_nat (seq 1 n).

(** The database file before any table exists. *)
Definition no_tables : db := mkDb None None.

(** The id given to a row inserted into a table whose ids are [ids]. *)
Definition next_rowid (ids : list Z) : Z := (1 + fold_right Z.max 0 ids)%Z.

(** [create_databases]: both tables are dropped if they exist and created
    anew, so on the states of [db] the outcome does not depend on what the
    file held. *)
Definition create_databases (d : db) : db := mkDb (Some []) (Some []).

(** [INSERT INTO prices (coin_name, date, price_usd) VALUES (?, ?, ?)]. *)
Definition insert_price (coin_name : string) (rows : list price_row) (r : Row)
  : list price_row :=
  rows ++ [mkPrice (next_rowid (map price_id rows)) coin_name (date r)
             (bind_double (snd r))].

(** The two nested loops of [save_prices_db], from the emptied table. *)
Definition prices_rows (prices : Dict.t DataFrame) : list price_row :=
  fold_left
    (fun rows item => fold_left (insert_price (fst item)) (snd item) rows)
    (Dict.items prices) [].

(** [save_prices_db]: [None] is the [sqlite3.OperationalError] raised by
    [DELETE FROM prices] when the table does not exist. *)
Definition save_prices_db (prices_data : Dict.t DataFrame) (d : db) : option db :=
  match prices d with
  | None => None
  | Some _ => Some (mkDb (Some (prices_rows prices_data)) (trends d))
  end.

(** [INSERT INTO trends (coin_name, change_percentage, volatility)
    VALUES (?, ?, ?)]. *)
Definition insert_trend (rows : list trend_row) (item : string * Trend)
  : list trend_row :=
  rows ++ [mkTrendRow (next_rowid (map trend_id rows)) (fst item)
             (bind_double (change_percentage (snd item)))
             (bind_double (volatility (snd item)))].

Definition trends_rows (trends : Dict.t Trend) : list trend_row :=
  fold_left insert_trend (Dict.items trends) [].

(** [save_trends_db]. *)
Definition save_trends_db (trends_data : Dict.t Trend) (d : db) : option db :=
  match trends d with
  | None => None
  | Some _ => Some (mkDb (prices d) (Some (trends_rows trends_data)))
  end.

End Database.

(** * Facts about binary64 comparison and division

    The primitive operations are specified through [Prim2SF]; the lemmas below
    read the few facts the analysis needs off those specifications. *)

Module FloatFacts.
Open Scope float_scope.

Lemma SFcompare_swap (f1 f2 : spec_float) :
  SFcompare f2 f1 = option_map CompOpp (SFcompare f1 f2).
Proof.
  destruct f1 as [s1 | s1 | | s1 m1 e1], f2 as [s2 | s2 | | s2 m2 e2]; simpl;
    try reflexivity;
    try (destruct s1; reflexivity);
    try (destruct s2; reflexivity);
    try (destruct s1, s2; reflexivity).
  destruct s1, s2; simpl; try reflexivity;
    rewrite (Z.compare_antisym e1 e2);
    destruct (e1 ?= e2)%Z; simpl; try reflexivity;
    pose proof (Pos.compare_cont_antisym m1 m2 Eq) as Ha; simpl in Ha;
    rewrite <- Ha; reflexivity.
Qed.

Lemma SFcompare_refl (f : spec_float) :
  f <> S754_nan -> SFcompare f f = Some Eq.
Proof.
  destruct f as [s | s | | s m e]; simpl; intros Hf; try congruence.
  - destruct s; reflexivity.
  - destruct s; rewrite Z.compare_refl, Pos.compare_cont_refl; reflexivity.
Qed.

Lemma Prim2SF_nan (x : float) : Prim2SF x = S754_nan -> x = nan.
Proof. intros H. apply Prim2SF_inj. rewrite H. reflexivity. Qed.

Lemma Prim2SF_infinity (x : float) (s : bool) :
  Prim2SF x = S754_infinity s -> x = infinity \/ x = neg_infinity.
Proof.
  intros H. destruct s; [right | left]; apply Prim2SF_inj; rewrite H; reflexivity.
Qed.

Lemma notna_spec (x : float) :
  F.notna x = true <-> Prim2SF x <> S754_nan.
Proof.
  unfold F.notna, is_nan. rewrite negb_involutive, eqb_spec. unfold SFeqb.
  split.
  - intros H Hn. rewrite Hn in H. discriminate.
  - intros H. rewrite (SFcompare_refl _ H). reflexivity.
Qed.

(** A strict comparison that holds has two numbers on its sides. *)
Lemma ltb_notna (x y : float) :
  (x <? y) = true -> F.notna x = true /\ F.notna y = true.
Proof.
  rewrite ltb_spec. unfold SFltb. intros H.
  split; apply notna_spec; intros Hn; rewrite Hn in H;
    [ | destruct (Prim2SF x) ]; discriminate.
Qed.

Lemma ltb_leb_excl (x y : float) :
  (x <? y) = true -> (y <=? x) = false.
Proof.
  rewrite ltb_spec, leb_spec. unfold SFltb, SFleb.
  rewrite (SFcompare_swap (Prim2SF x) (Prim2SF y)).
  destruct (SFcompare (Prim2SF x) (Prim2SF y)) as [[ | | ] | ]; simpl; congruence.
Qed.

(** On numbers, [<=] is the negation of the converse [<]. *)
Lemma leb_negb_ltb (x y : float) :
  F.notna x = true -> F.notna y = true -> (x <=? y) = negb (y <? x).
Proof.
  rewrite !notna_spec, ltb_spec, leb_spec. unfold SFltb, SFleb. intros Hx Hy.
  rewrite (SFcompare_swap (Prim2SF x) (Prim2SF y)).
  destruct (Prim2SF x) as [s1 | s1 | | s1 m1 e1] eqn:Ex; try congruence;
    destruct (Prim2SF y) as [s2 | s2 | | s2 m2 e2] eqn:Ey; try congruence;
    match goal with
    | |- context [SFcompare ?a ?b] =>
        destruct (SFcompare a b) as [[ | | ] | ] eqn:Ec; simpl; try reflexivity
    end;
    simpl in Ec; discriminate.
Qed.

(** [x == 0] holds of the two zeros only. *)
Lemma eqb_zero (x : float) :
  (x =? 0) = true -> exists s, Prim2SF x = S754_zero s.
Proof.
  rewrite eqb_spec. unfold SFeqb.
  change (Prim2SF 0) with (S754_zero false).
  destruct (Prim2SF x) as [s | s | | s m e]; simpl; try discriminate.
  - intros _. exists s. reflexivity.
  - destruct s; discriminate.
  - destruct s; discriminate.
Qed.

(** Dividing by a zero never gives a finite number, and scaling by 100
    keeps it so. *)
Lemma div_zero_percent (x z : float) :
  (z =? 0) = true -> F.non_finite (x / z * 100).
Proof.
  intros Hz. destruct (eqb_zero _ Hz) as [s Hs].
  assert (Hq : Prim2SF (x / z) = S754_nan \/ exists b, Prim2SF (x / z) = S754_infinity b).
  { rewrite div_spec, Hs. unfold SF64div, SFdiv.
    destruct (Prim2SF x) as [sx | sx | | sx mx ex]; eauto. }
  assert (Hm : Prim2SF (x / z * 100) = S754_nan
               \/ exists b, Prim2SF (x / z * 100) = S754_infinity b).
  { rewrite mul_spec.
    change (Prim2SF 100) with (S754_finite false 7036874417766400 (-46)).
    destruct Hq as [Hq | [b Hq]]; rewrite Hq; simpl; eauto. }
  unfold F.non_finite.
  destruct Hm as [Hm | [b Hm]].
  - right; right. exact (Prim2SF_nan _ Hm).
  - destruct (Prim2SF_infinity _ _ Hm); auto.
Qed.
End FloatFacts.

(** * Facts about dictionaries *)

Module DictFacts.
Section Facts.
Context {V : Type}.
Implicit Types (d : Dict.t V) (k : string) (v : V).

Lemma get_set_same k v d : Dict.get k (Dict.set k v d) = Some v.
Proof.
  induction d as [ | [k' v'] d IH]; simpl.
  - now rewrite String.eqb_refl.
  - destruct (String.eqb k k') eqn:E; simpl; rewrite ?String.eqb_refl, ?E; auto.
Qed.

Lemma get_set_other k k' v d :
  k <> k' -> Dict.get k (Dict.set k' v d) = Dict.get k d.
Proof.
  intros Hne. apply String.eqb_neq in Hne.
  induction d as [ | [k0 v0] d IH]; simpl.
  - now rewrite Hne.
  - destruct (String.eqb k' k0) eqn:E; simpl.
    + apply String.eqb_eq in E. subst k0. now rewrite Hne.
    + now rewrite IH.
Qed.

Lemma keys_set k k' v d :
  In k (Dict.keys (Dict.set k' v d)) <-> k = k' \/ In k (Dict.keys d).
Proof.
  induction d as [ | [k0 v0] d IH]; simpl.
  - intuition congruence.
  - destruct (String.eqb k' k0) eqn:E; simpl.
    + apply String.eqb_eq in E. subst k0. intuition congruence.
    + rewrite IH. intuition congruence.
Qed.



Lemma set_app_notin k v d1 d2 :
  ~ In k (Dict.keys d1) -> Dict.set k v (d1 ++ d2) = d1 ++ Dict.set k v d2.
Proof.
  induction d1 as [ | [k0 v0] d1 IH]; simpl; intros Hnin.
  - reflexivity.
  - destruct (String.eqb k k0) eqn:E.
    + apply String.eqb_eq in E. subst k0. intuition.
    + rewrite IH; intuition.
Qed.

Lemma set_nodup k v d : NoDup (Dict.keys d) -> NoDup (Dict.keys (Dict.set k v d)).
Proof.
  induction d as [ | [k0 v0] d IH]; simpl; intros Hnd.
  - constructor; [intuition | constructor].
  - inversion Hnd as [ | ? ? Hnin Hnd']; subst.
    destruct (String.eqb k k0) eqn:E; simpl.
    + apply String.eqb_eq in E. subst k0. now constructor.
    + apply String.eqb_neq in E. constructor; [ | now apply IH].
      rewrite keys_set. intuition congruence.
Qed.
End Facts.
End DictFacts.

(** * Facts about normalisation *)

Module NormalizerFacts.
Local Open Scope Z_scope.

Lemma filter_none {A : Type} (f : A -> bool) (l : list A) :
  (forall x, In x l -> f x = false) -> filter f l = [].
Proof.
  induction l as [ | a l IH]; simpl; intros H; [reflexivity | ].
  rewrite (H a) by auto. apply IH. auto.
Qed.

Lemma existsb_same_date (r : Row) (df : DataFrame) :
  existsb (fun r' => date r' =? date r) df = true <-> In (date r) (map date df).
Proof.
  rewrite existsb_exists, in_map_iff.
  split; intros [r' [H1 H2]]; exists r'.
  - apply Z.eqb_eq in H2. auto.
  - rewrite Z.eqb_eq. auto.
Qed.

Lemma drop_incl (df : DataFrame) (r : Row) :
  In r (drop_duplicates_last df) -> In r df.
Proof.
  induction df as [ | a df IH]; simpl; [tauto | ].
  destruct (existsb _ df); simpl; intuition.
Qed.

(** No date is lost by the deduplication. *)
Lemma drop_dates (df : DataFrame) (d : Z) :
  In d (map date (drop_duplicates_last df)) <-> In d (map date df).
Proof.
  induction df as [ | a df IH]; simpl; [tauto | ].
  destruct (existsb _ df) eqn:E; simpl; rewrite IH.
  - apply existsb_same_date in E. intuition congruence.
  - tauto.
Qed.

Lemma drop_nodup (df : DataFrame) : NoDup (map date (drop_duplicates_last df)).
Proof.
  induction df as [ | a df IH]; simpl; [constructor | ].
  destruct (existsb _ df) eqn:E; simpl; [exact IH | ].
  constructor; [ | exact IH].
  rewrite drop_dates, <- existsb_same_date, E. discriminate.
Qed.

(** A frame whose dates are already unique is left as it is. *)
Lemma drop_fixpoint (df : DataFrame) :
  NoDup (map date df) -> drop_duplicates_last df = df.
Proof.
  induction df as [ | a df IH]; simpl; intros Hnd; [reflexivity | ].
  inversion Hnd as [ | ? ? Hnin Hnd']; subst.
  destruct (existsb _ df) eqn:E.
  - apply existsb_same_date in E. contradiction.
  - now rewrite IH.
Qed.

Lemma drop_idempotent (df : DataFrame) :
  drop_duplicates_last (drop_duplicates_last df) = drop_duplicates_last df.
Proof. apply drop_fixpoint, drop_nodup. Qed.

(** The rows of one date after deduplication: the last row of that date. *)
Lemma drop_keeps_last (l1 l2 : DataFrame) (r : Row) :
  ~ In (date r) (map date l2) ->
  filter (fun r' => date r' =? date r) (drop_duplicates_last (l1 ++ r :: l2)) = [r].
Proof.
  intros Hlast.
  assert (Htail : filter (fun r' => date r' =? date r) (drop_duplicates_last l2) = []).
  { apply filter_none. intros r' Hin.
    apply drop_incl in Hin. apply Z.eqb_neq. intros Heq.
    apply Hlast. rewrite <- Heq. now apply in_map. }
  induction l1 as [ | a l1 IH]; simpl.
  - destruct (existsb _ l2) eqn:E.
    + apply existsb_same_date in E. contradiction.
    + simpl. now rewrite Z.eqb_refl, Htail.
  - destruct (existsb _ (l1 ++ r :: l2)) eqn:E; [exact IH | ].
    simpl. destruct (date a =? date r) eqn:Ea; [ | exact IH].
    apply Z.eqb_eq in Ea.
    assert (In (date a) (map date (l1 ++ r :: l2))) as Hin.
    { rewrite Ea. apply in_map, in_elt. }
    apply existsb_same_date in Hin. congruence.
Qed.


Section Zone.
Variable utc_offset : Z.


Lemma fromtimestamp_date_midnight (d : Z) :
  fromtimestamp_date utc_offset (midnight utc_offset d) = d.
Proof.
  unfold fromtimestamp_date, midnight.
  replace (d * 86400000 - 1000 * utc_offset + 1000 * utc_offset) with (d * 86400000) by lia.
  apply Z.div_mul. lia.
Qed.

End Zone.
End NormalizerFacts.

(** * Facts about the analyzer and the recommendation loop *)

Module AnalyzerFacts.
Import Analyzer.

Lemma daily_changes_length (prices : list float) :
  List.length (daily_changes prices) = (List.length prices - 1)%nat.
Proof.
  induction prices as [ | p0 [ | p1 rest] IH]; simpl in *; try reflexivity.
  rewrite IH. lia.
Qed.

Lemma analyze_frame_None (df : DataFrame) : analyze_frame df = None <-> df = [].
Proof. destruct df as [ | [d p] rest]; simpl; split; intros; congruence. Qed.

Lemma last_cons {A : Type} (l : list A) (a d : A) : last (a :: l) d = last l a.
Proof.
  revert a d. induction l as [ | b l IH]; intros a d; [reflexivity | ].
  change (last (b :: l) d = last (b :: l) a). now rewrite !IH.
Qed.




(** The three fields of the metrics, read off the loop body. *)
Lemma analyze_frame_change (df : DataFrame) (t : Trend) :
  analyze_frame df = Some t ->
  change_percentage t
  = ((last (price_usd df) 0 - hd 0 (price_usd df)) / hd 0 (price_usd df) * 100)%float.
Proof.
  destruct df as [ | [d0 p0] rest]; [discriminate | ].
  unfold analyze_frame. intros Ht. injection Ht as <-.
  unfold price_usd. cbn [change_percentage map snd hd].
  rewrite !last_cons. destruct (map snd rest); reflexivity.
Qed.

Lemma analyze_frame_volatility (df : DataFrame) (t : Trend) :
  analyze_frame df = Some t ->
  volatility t
  = if (1 <? List.length (daily_changes (price_usd df)))%nat
    then Series_std (daily_changes (price_usd df))
    else 0%float.
Proof.
  destruct df as [ | [d0 p0] rest]; [discriminate | ].
  intros Ht. injection Ht as <-. reflexivity.
Qed.

Lemma analyze_frame_average (df : DataFrame) (t : Trend) :
  analyze_frame df = Some t -> average_price t = F.mean (price_usd df).
Proof.
  destruct df as [ | [d0 p0] rest]; [discriminate | ].
  intros Ht. injection Ht as <-. reflexivity.
Qed.

(** Without missing values the library's deviation has one shape. *)
Lemma Series_std_all_notna (xs : list float) :
  Forall (fun x => F.notna x = true) xs -> filter F.notna xs = xs.
Proof.
  induction 1 as [ | x xs Hx _ IH]; simpl; [reflexivity | ].
  now rewrite Hx, IH.
Qed.

Section Loop.
Implicit Types (items : list (string * DataFrame)) (trends : Dict.t Trend).


Lemma loop_other items trends (k : string) :
  ~ In k (map fst items) ->
  Dict.get k (fold_left analyze_step items trends) = Dict.get k trends.
Proof.
  revert trends. induction items as [ | [c df] items IH]; simpl; intros trends H.
  - reflexivity.
  - rewrite IH by tauto. unfold analyze_step. simpl.
    destruct (analyze_frame df); [ | reflexivity].
    apply DictFacts.get_set_other. intuition.
Qed.

Lemma loop_get items trends (k : string) (df : DataFrame) :
  NoDup (map fst items) -> In (k, df) items ->
  Dict.get k (fold_left analyze_step items trends)
  = match analyze_frame df with Some t => Some t | None => Dict.get k trends end.
Proof.
  revert trends. induction items as [ | [c df'] items IH]; simpl; intros trends Hnd Hin.
  - contradiction.
  - inversion Hnd as [ | ? ? Hnin Hnd']; subst.
    destruct Hin as [Heq | Hin].
    + inversion Heq; subst. rewrite loop_other by assumption.
      unfold analyze_step. simpl.
      destruct (analyze_frame df); [ | reflexivity].
      apply DictFacts.get_set_same.
    + rewrite (IH _ Hnd' Hin).
      destruct (analyze_frame df); [reflexivity | ].
      unfold analyze_step. simpl.
      destruct (analyze_frame df'); [ | reflexivity].
      apply DictFacts.get_set_other. intros ->.
      apply Hnin. change c with (fst (c, df)). now apply in_map.
Qed.
End Loop.

(** Each coin's entry is the analysis of its own frame, whatever else is
    in the batch. *)
Lemma analyze_trends_get (price_data : Dict.t DataFrame) (k : string) (df : DataFrame) :
  NoDup (Dict.keys price_data) -> In (k, df) price_data ->
  Dict.get k (analyze_trends price_data) = analyze_frame df.
Proof.
  intros Hnd Hin. unfold analyze_trends, Dict.items.
  rewrite (loop_get _ _ _ _ Hnd Hin). now destruct (analyze_frame df).
Qed.


End AnalyzerFacts.

Module RecommendFacts.
Import Recommend.
Local Open Scope float_scope.

Lemma recommendations_In (trends : Dict.t Trend) (rec : Rec.t) :
  In rec (recommendations trends) <->
  exists coin_name trend,
    In (coin_name, trend) trends
    /\ (0 <? change_percentage trend) = true
    /\ rec = of_trend coin_name trend.
Proof.
  induction trends as [ | [c t] trends IH]; simpl.
  - split; [tauto | intros (? & ? & [] & _)].
  - destruct (0 <? change_percentage t) eqn:E; simpl; rewrite IH; split.
    + intros [<- | (c' & t' & H1 & H2 & H3)]; [exists c, t | exists c', t']; auto.
    + intros (c' & t' & [Heq | H1] & H2 & H3).
      * inversion Heq; subst. now left.
      * right. exists c', t'. auto.
    + intros (c' & t' & H1 & H2 & H3). exists c', t'. auto.
    + intros (c' & t' & [Heq | H1] & H2 & H3).
      * inversion Heq; subst. congruence.
      * exists c', t'. auto.
Qed.

End RecommendFacts.

(** * Facts about the fetch loop *)

Module PipelineFacts.
Section Zone.
Variable utc_offset : Z.
Abbreviation step := (get_prices_step utc_offset).
Implicit Types (reqs : list (string * response)) (prices : Dict.t DataFrame).




End Zone.
End PipelineFacts.

(** * Properties of the normaliser *)

Module NormalizerSpec.
Import NormalizerFacts.
Local Open Scope Z_scope.

(** C3.  Normalisation keeps, for each calendar date, exactly one row, and
    its value is that of the last raw sample of that date by position in
    the input: whatever precedes the sample ([before]) and whatever its
    timestamp and price are, if no later sample ([after]) falls on the same
    date then the only row of that date in the series carries this
    sample's price. *)
Theorem last_sample_of_a_date_wins
    (utc_offset : Z) (before after : list (Z * float)) (ts : Z) (price : float) :
  (forall s, In s after ->
             fromtimestamp_date utc_offset (fst s) <> fromtimestamp_date utc_offset ts) ->
  filter (fun r => date r =? fromtimestamp_date utc_offset ts)
         (normalize utc_offset (before ++ (ts, price) :: after))
  = [(fromtimestamp_date utc_offset ts, price)].
Proof.
  intros Hlast. unfold normalize, price_data.
  rewrite map_app. simpl.
  apply (drop_keeps_last _ _ (fromtimestamp_date utc_offset ts, price)).
  simpl. rewrite map_map. simpl. rewrite in_map_iff.
  intros [s [Hs Hin]]. exact (Hlast s Hin Hs).
Qed.

(** The payload of the unit test: the third sample is the last one of
    10 December and wins over the first, although both carry the same
    timestamp and the first one's successor has a larger price. *)
Lemma last_sample_of_a_date_wins_witness :
  filter (fun r => date r =? 20067)
         (normalize 0 Samples.bitcoin_payload)
  = [(20067, 97779.31%float)].
Proof.
  apply (last_sample_of_a_date_wins 0
           [(1733832000000, 97077.22%float); (1733918400000, 99807.41%float)]
           [(1733918400000, 97343.92%float)]
           1733832000000 97779.31%float).
  intros s [<- | []]. vm_compute. discriminate.
Defined.




(** C10.  Normalisation is idempotent: deduplicating a normalised series
    again returns it, and so does the whole normalisation applied to the
    series read back as raw samples (each date taken at its local
    midnight). *)
Theorem normalization_idempotent (utc_offset : Z) (samples : list (Z * float)) :
  drop_duplicates_last (normalize utc_offset samples) = normalize utc_offset samples
  /\ normalize utc_offset
       (map (fun r => (midnight utc_offset (date r), snd r)) (normalize utc_offset samples))
     = normalize utc_offset samples.
Proof.
  assert (Hd : drop_duplicates_last (normalize utc_offset samples)
               = normalize utc_offset samples) by apply drop_idempotent.
  split; [exact Hd | ].
  unfold normalize at 1. unfold price_data at 1. rewrite map_map. simpl.
  erewrite map_ext; [rewrite map_id; exact Hd | ].
  intros [d p]. simpl. unfold date. simpl.
  now rewrite fromtimestamp_date_midnight.
Qed.
End NormalizerSpec.

(** * Properties of the analyzer *)

Module AnalyzerSpec.
Import Analyzer AnalyzerFacts.
Local Open Scope float_scope.

(** C1, as stated, fails: a series whose first price is zero is analysed
    like any other one; no error arises and the asset gets metrics, with an
    infinite change percentage. *)
Lemma zero_first_price_yields_metrics :
  analyze_trends Samples.zero_start_batch
  = [("zerocoin"%string, mkTrend infinity 0 0.5);
     ("bitcoin"%string, Samples.two_day_trend)].
Proof. vm_compute. reflexivity. Qed.

(** C1, amended.  In every batch, an asset whose series starts at price
    zero gets metrics whose change percentage is not finite (an infinity or
    NaN); nothing fails, and every asset of the batch, this one included,
    gets exactly the analysis of its own series, which exists whenever the
    series is not empty. *)
Theorem zero_first_price_is_local
    (batch : Dict.t DataFrame) (coin : string) (d0 : Z) (first_price : float)
    (rest : DataFrame) :
  NoDup (Dict.keys batch) ->
  In (coin, (d0, first_price) :: rest) batch ->
  (first_price =? 0) = true ->
  (exists t, Dict.get coin (analyze_trends batch) = Some t
             /\ F.non_finite (change_percentage t))
  /\ (forall coin' df', In (coin', df') batch ->
                        Dict.get coin' (analyze_trends batch) = analyze_frame df'
                        /\ (df' <> [] -> analyze_frame df' <> None)).
Proof.
  intros Hnd Hin Hz. split.
  - rewrite (analyze_trends_get _ _ _ Hnd Hin). simpl.
    eexists. split; [reflexivity | ]. simpl.
    now apply FloatFacts.div_zero_percent.
  - intros coin' df' Hin'. split; [now apply analyze_trends_get | ].
    intros Hne Hnone. now apply analyze_frame_None in Hnone.
Qed.

Lemma zero_first_price_is_local_witness :
  (exists t, Dict.get "zerocoin"%string (analyze_trends Samples.zero_start_batch) = Some t
             /\ F.non_finite (change_percentage t))
  /\ (forall coin' df', In (coin', df') Samples.zero_start_batch ->
        Dict.get coin' (analyze_trends Samples.zero_start_batch) = analyze_frame df'
        /\ (df' <> [] -> analyze_frame df' <> None)).
Proof.
  apply (zero_first_price_is_local Samples.zero_start_batch "zerocoin"%string
           0%Z 0 [(1%Z, 1)]).
  - unfold Samples.zero_start_batch. simpl.
    repeat constructor; simpl; intuition discriminate.
  - left. reflexivity.
  - reflexivity.
Defined.

(** C2, as stated, fails: the prices 1, 2, 4, 0, 0 have the four daily
    changes 1, 1, -1 and NaN; the sample standard deviation of these four
    values with divisor 3 is NaN, but the volatility is 1.1547..., the sample
    standard deviation of the three changes that are numbers, with
    divisor 2. *)
Lemma nan_changes_are_left_out :
  analyze_frame Samples.stalled_frame
  = Some (mkTrend (-100) 1.1547005383792517 1.3999999999999999)
  /\ daily_changes (price_usd Samples.stalled_frame) = [1; 1; -1; nan]
  /\ sample_std (daily_changes (price_usd Samples.stalled_frame)) = nan
  /\ sample_std [1; 1; -1] = 1.1547005383792517.
Proof. repeat split; vm_compute; reflexivity. Qed.

(** C2, amended.  For a non-empty series of at least three entries, the
    volatility is the Bessel-corrected sample standard deviation of the
    daily changes that are not NaN (the square root of their summed squared
    deviations from their mean over their number minus one), and NaN when
    fewer than two daily changes are not NaN; so when no daily change is
    NaN it is the sample standard deviation, divisor [n - 1], of all [n]
    daily changes.  A series of one or two entries has volatility 0.0. *)
Theorem volatility_policy (df : DataFrame) (t : Trend) :
  analyze_frame df = Some t ->
  ((3 <= List.length df)%nat ->
   (2 <= List.length (filter F.notna (daily_changes (price_usd df))))%nat ->
   volatility t = sample_std (filter F.notna (daily_changes (price_usd df))))
  /\ ((3 <= List.length df)%nat ->
      (List.length (filter F.notna (daily_changes (price_usd df))) <= 1)%nat ->
      volatility t = nan)
  /\ ((3 <= List.length df)%nat ->
      Forall (fun x => F.notna x = true) (daily_changes (price_usd df)) ->
      volatility t = sample_std (daily_changes (price_usd df)))
  /\ ((List.length df <= 2)%nat -> volatility t = 0).
Proof.
  intros Ht. rewrite (analyze_frame_volatility _ _ Ht).
  pose proof (daily_changes_length (price_usd df)) as Hlen.
  unfold price_usd in Hlen at 2. rewrite length_map in Hlen.
  set (dc := daily_changes (price_usd df)) in *.
  assert (Hmany : (3 <= List.length df)%nat -> (1 <? List.length dc)%nat = true).
  { intros H. apply Nat.ltb_lt. (unfold Row in *; lia). }
  split; [ | split; [ | split]].
  - intros H Hobs. rewrite (Hmany H). unfold Series_std, sample_std.
    destruct (List.length (filter F.notna dc) <=? 1)%nat eqn:E; [ | reflexivity].
    apply Nat.leb_le in E. (unfold Row in *; lia).
  - intros H Hobs. rewrite (Hmany H). unfold Series_std.
    destruct (List.length (filter F.notna dc) <=? 1)%nat eqn:E; [reflexivity | ].
    apply Nat.leb_gt in E. (unfold Row in *; lia).
  - intros H Hnotna. rewrite (Hmany H). unfold Series_std, sample_std.
    rewrite (Series_std_all_notna _ Hnotna).
    destruct (List.length dc <=? 1)%nat eqn:E; [ | reflexivity].
    apply Nat.leb_le in E. (unfold Row in *; lia).
  - intros H. destruct (1 <? List.length dc)%nat eqn:E; [ | reflexivity].
    apply Nat.ltb_lt in E. (unfold Row in *; lia).
Qed.

Lemma volatility_policy_witness :
  volatility Samples.bitcoin_trend = sample_std (daily_changes Samples.bitcoin_prices)
  /\ volatility Samples.two_day_trend = 0
  /\ volatility (mkTrend (-100) 1.1547005383792517 1.3999999999999999)
     = sample_std [1; 1; -1].
Proof.
  assert (H4 : analyze_frame Samples.bitcoin_frame = Some Samples.bitcoin_trend)
    by (vm_compute; reflexivity).
  assert (H2 : analyze_frame Samples.two_day_frame = Some Samples.two_day_trend)
    by (vm_compute; reflexivity).
  assert (H5 : analyze_frame Samples.stalled_frame
               = Some (mkTrend (-100) 1.1547005383792517 1.3999999999999999))
    by (vm_compute; reflexivity).
  destruct (volatility_policy _ _ H4) as (_ & _ & Hstd & _).
  destruct (volatility_policy _ _ H2) as (_ & _ & _ & Hzero).
  destruct (volatility_policy _ _ H5) as (Hobs & _ & _ & _).
  split; [ | split].
  - apply Hstd; [simpl; lia | repeat constructor].
  - apply Hzero. simpl. lia.
  - apply Hobs; simpl; lia.
Defined.



(** C9.  The four prices of the unit test, on any four dates, give a
    change percentage of about 0.27 (it is the quotient built from the
    first price 97077.22 and the last price 97343.92), an average price of
    about 98001.965 (the mean of the four prices) and a volatility of about
    0.025 (the sample standard deviation of the three daily changes);
    "about" is the tolerance of the tests, half a unit of the last decimal
    place they compare. *)
Theorem bitcoin_sample_metrics (d1 d2 d3 d4 : Z) :
  exists t,
    analyze_frame [(d1, 97077.22); (d2, 99807.41); (d3, 97779.31); (d4, 97343.92)]
    = Some t
    /\ F.almost_equal (change_percentage t) 0.27 0.005 = true
    /\ change_percentage t = (97343.92 - 97077.22) / 97077.22 * 100
    /\ F.almost_equal (average_price t) 98001.965 0.0005 = true
    /\ average_price t = (0 + 97077.22 + 99807.41 + 97779.31 + 97343.92) / 4
    /\ F.almost_equal (volatility t) 0.025 0.0005 = true
    /\ List.length (daily_changes Samples.bitcoin_prices) = 3%nat
    /\ volatility t = sample_std (daily_changes Samples.bitcoin_prices).
Proof.
  exists Samples.bitcoin_trend.
  repeat split; vm_compute; reflexivity.
Qed.
End AnalyzerSpec.

(** * Properties of the recommendation filter and of the pipeline *)

Module RecommendSpec.
Import Recommend RecommendFacts.
Local Open Scope float_scope.

(** C6.  A coin of the trends mapping is recommended exactly when its
    change percentage is strictly positive; every recommendation comes
    from such a coin; and a coin whose change percentage is at most zero,
    zero included, is not recommended. *)
Theorem recommended_iff_positive (trends : Dict.t Trend) :
  (forall coin_name trend,
      In (coin_name, trend) trends ->
      (In (of_trend coin_name trend) (recommendations trends)
       <-> (0 <? change_percentage trend) = true))
  /\ (forall rec,
         In rec (recommendations trends) ->
         (0 <? Rec.change_percentage rec) = true
         /\ exists trend, In (Rec.coin rec, trend) trends
                          /\ rec = of_trend (Rec.coin rec) trend)
  /\ (forall coin_name trend,
         In (coin_name, trend) trends ->
         (change_percentage trend <=? 0) = true ->
         ~ In (of_trend coin_name trend) (recommendations trends)).
Proof.
  assert (Hiff : forall coin_name trend,
             In (coin_name, trend) trends ->
             (In (of_trend coin_name trend) (recommendations trends)
              <-> (0 <? change_percentage trend) = true)).
  { intros c t Hin. rewrite recommendations_In. split.
    - intros (c' & t' & _ & Hpos & Heq).
      unfold of_trend in Heq. injection Heq as _ Hcp _ _. now rewrite Hcp.
    - intros Hpos. exists c, t. auto. }
  split; [exact Hiff | split].
  - intros rec Hin. apply recommendations_In in Hin.
    destruct Hin as (c & t & Hin & Hpos & ->). simpl. split; [exact Hpos | ].
    exists t. auto.
  - intros c t Hin Hle Hrec. apply (Hiff c t Hin) in Hrec.
    apply FloatFacts.ltb_leb_excl in Hrec. congruence.
Qed.

Lemma recommended_iff_positive_witness :
  In (of_trend "up" (mkTrend 1.5 0 10))
     (recommendations [("up"%string, mkTrend 1.5 0 10);
                       ("flat"%string, mkTrend 0 0 10);
                       ("down"%string, mkTrend (-2) 0 10)])
  /\ ~ In (of_trend "flat" (mkTrend 0 0 10))
       (recommendations [("up"%string, mkTrend 1.5 0 10);
                         ("flat"%string, mkTrend 0 0 10);
                         ("down"%string, mkTrend (-2) 0 10)]).
Proof.
  destruct (recommended_iff_positive
              [("up"%string, mkTrend 1.5 0 10);
               ("flat"%string, mkTrend 0 0 10);
               ("down"%string, mkTrend (-2) 0 10)]) as (Hiff & _ & Hnever).
  split.
  - apply Hiff; [left; reflexivity | reflexivity].
  - apply Hnever; [right; left; reflexivity | reflexivity].
Defined.

(** C5.  For a recommended coin the suggestion is the high tier exactly
    when the change percentage exceeds 5, and the moderate tier exactly
    when it is positive and at most 5; at 5.0 the tier is moderate, at
    5.0001 it is high. *)
Theorem tier_boundary (trends : Dict.t Trend) (rec : Rec.t) :
  In rec (recommendations trends) ->
  (suggestion rec = "High potential for growth!"%string
   <-> (5 <? Rec.change_percentage rec) = true)
  /\ (suggestion rec = "Moderate growth expected."%string
      <-> (0 <? Rec.change_percentage rec) = true
          /\ (Rec.change_percentage rec <=? 5) = true)
  /\ (Rec.change_percentage rec = 5
      -> suggestion rec = "Moderate growth expected."%string)
  /\ (Rec.change_percentage rec = 5.0001
      -> suggestion rec = "High potential for growth!"%string).
Proof.
  intros Hin. apply recommendations_In in Hin.
  destruct Hin as (c & t & _ & Hpos & ->). simpl.
  destruct (FloatFacts.ltb_notna _ _ Hpos) as [_ Hnum].
  rewrite (FloatFacts.leb_negb_ltb _ 5 Hnum eq_refl).
  unfold suggestion. simpl.
  repeat split.
  - destruct (5 <? change_percentage t); [reflexivity | discriminate].
  - destruct (5 <? change_percentage t); [reflexivity | discriminate].
  - exact Hpos.
  - destruct (5 <? change_percentage t); [discriminate | reflexivity].
  - intros [_ H]. destruct (5 <? change_percentage t); [discriminate | reflexivity].
  - intros ->. reflexivity.
  - intros ->. reflexivity.
Qed.

Lemma tier_boundary_witness :
  suggestion (of_trend "five" (mkTrend 5 0 10)) = "Moderate growth expected."%string
  /\ suggestion (of_trend "more" (mkTrend 5.0001 0 10)) = "High potential for growth!"%string.
Proof.
  split.
  - refine (proj1 (proj2 (proj2 (tier_boundary
              [("five"%string, mkTrend 5 0 10)] (of_trend "five" (mkTrend 5 0 10)) _))) _).
    + left. reflexivity.
    + reflexivity.
  - refine (proj2 (proj2 (proj2 (tier_boundary
              [("more"%string, mkTrend 5.0001 0 10)]
              (of_trend "more" (mkTrend 5.0001 0 10)) _))) _).
    + left. reflexivity.
    + reflexivity.
Defined.


End RecommendSpec.

(** * Further facts about binary64 arithmetic *)

Module FloatEdge.
Local Open Scope float_scope.

Lemma Prim2SF_zero_eqb (x : float) (s : bool) :
  Prim2SF x = S754_zero s -> (x =? 0) = true.
Proof.
  intros H. rewrite eqb_spec, H. reflexivity.
Qed.

Lemma nan_not_positive (x : float) : Prim2SF x = S754_nan -> (0 <? x) = false.
Proof. intros H. rewrite ltb_spec, H. reflexivity. Qed.

Lemma zero_not_positive (x : float) (s : bool) :
  Prim2SF x = S754_zero s -> (0 <? x) = false.
Proof. intros H. rewrite ltb_spec, H. reflexivity. Qed.

(** A number and an infinity are told apart by [is_finite]. *)
Lemma is_finite_spec (x : float) :
  PrimFloat.is_finite x = true ->
  (exists s, Prim2SF x = S754_zero s) \/ (exists s m e, Prim2SF x = S754_finite s m e).
Proof.
  unfold PrimFloat.is_finite, PrimFloat.is_nan, PrimFloat.is_infinity.
  rewrite !eqb_spec, abs_spec.
  destruct (Prim2SF x) as [s | s | | s m e]; simpl.
  - eauto.
  - change (Prim2SF infinity) with (S754_infinity false).
    destruct s; cbv; discriminate.
  - cbv. discriminate.
  - intros _. right. eauto.
Qed.

Lemma finite_nonzero_spec (x : float) :
  PrimFloat.is_finite x = true -> (x =? 0) = false ->
  exists s m e, Prim2SF x = S754_finite s m e.
Proof.
  intros Hf Hz. destruct (is_finite_spec x Hf) as [[s Hs] | H]; [ | exact H].
  rewrite (Prim2SF_zero_eqb x s Hs) in Hz. discriminate.
Qed.

(** [x - x] is the positive zero, or NaN when [x] is no number. *)
Lemma sub_self (x : float) :
  Prim2SF (x - x) = S754_nan \/ Prim2SF (x - x) = S754_zero false.
Proof.
  rewrite sub_spec. unfold SF64sub.
  destruct (Prim2SF x) as [s | s | | s m e]; simpl.
  - right. now destruct s.
  - left. now destruct s.
  - now left.
  - right. now rewrite Z.sub_diag.
Qed.

Lemma sub_self_finite (x : float) (s : bool) (m : positive) (e : Z) :
  Prim2SF x = S754_finite s m e -> Prim2SF (x - x) = S754_zero false.
Proof.
  intros H. rewrite sub_spec, H. unfold SF64sub. simpl. now rewrite Z.sub_diag.
Qed.

(** A zero or NaN stays one when divided by anything and scaled by 100. *)
Lemma zero_or_nan_percent (n x : float) :
  Prim2SF n = S754_nan \/ Prim2SF n = S754_zero false ->
  Prim2SF (n / x * 100) = S754_nan \/ exists s, Prim2SF (n / x * 100) = S754_zero s.
Proof.
  intros Hn. rewrite mul_spec, div_spec.
  change (Prim2SF 100) with (S754_finite false 7036874417766400 (-46)).
  destruct Hn as [-> | ->]; [now left | ].
  destruct (Prim2SF x) as [s | s | | s m e]; simpl; eauto.
Qed.

(** The change percentage of a series that ends where it starts. *)
Lemma same_price_percent (x : float) :
  (0 <? (x - x) / x * 100) = false.
Proof.
  destruct (zero_or_nan_percent (x - x) x (sub_self x)) as [H | [s H]].
  - now apply nan_not_positive.
  - now apply (zero_not_positive _ s).
Qed.

Lemma same_price_percent_zero (x : float) :
  PrimFloat.is_finite x = true -> (x =? 0) = false ->
  ((x - x) / x * 100 =? 0) = true.
Proof.
  intros Hf Hz. destruct (finite_nonzero_spec x Hf Hz) as (s & m & e & Hx).
  assert (H : exists s', Prim2SF ((x - x) / x * 100) = S754_zero s').
  { rewrite mul_spec, div_spec, (sub_self_finite x s m e Hx), Hx.
    change (Prim2SF 100) with (S754_finite false 7036874417766400 (-46)).
    simpl. eauto. }
  destruct H as [s' H]. exact (Prim2SF_zero_eqb _ s' H).
Qed.

(** What is no number is NaN or an infinity. *)
Lemma not_finite_spec (x : float) :
  PrimFloat.is_finite x = false ->
  Prim2SF x = S754_nan \/ exists s, Prim2SF x = S754_infinity s.
Proof.
  unfold PrimFloat.is_finite, PrimFloat.is_nan, PrimFloat.is_infinity.
  rewrite !eqb_spec, abs_spec.
  change (Prim2SF infinity) with (S754_infinity false).
  destruct (Prim2SF x) as [s | s | | s m e]; simpl.
  - destruct s; cbv; discriminate.
  - eauto.
  - now left.
  - unfold SFeqb. rewrite FloatFacts.SFcompare_refl by discriminate.
    simpl. discriminate.
Qed.

(** The change percentage of a one-price series whose price is a zero, an
    infinity or NaN. *)
Lemma same_price_percent_nan (x : float) :
  PrimFloat.is_finite x = false \/ (x =? 0) = true ->
  (x - x) / x * 100 = nan.
Proof.
  intros H. apply FloatFacts.Prim2SF_nan.
  rewrite mul_spec, div_spec, sub_spec.
  change (Prim2SF 100) with (S754_finite false 7036874417766400 (-46)).
  destruct H as [H | H].
  - destruct (not_finite_spec x H) as [-> | [s ->]]; [reflexivity | ].
    now destruct s.
  - destruct (FloatFacts.eqb_zero x H) as [s ->]. now destruct s.
Qed.

(** A positive price over a price of [+0.0]. *)
Lemma positive_over_zero_percent (x : float) :
  (0 <? x) = true -> (x - 0) / 0 * 100 = infinity.
Proof.
  rewrite ltb_spec. change (Prim2SF 0) with (S754_zero false). intros Hpos.
  apply Prim2SF_inj. rewrite mul_spec, div_spec, sub_spec.
  change (Prim2SF 0) with (S754_zero false).
  change (Prim2SF 100) with (S754_finite false 7036874417766400 (-46)).
  change (Prim2SF infinity) with (S754_infinity false).
  destruct (Prim2SF x) as [s | s | | s m e]; simpl in *; try discriminate;
    destruct s; try discriminate; reflexivity.
Qed.

(** Rounding keeps the sign it is given. *)
Lemma binary_round_aux_sign (mx ex : Z) (lx : location) :
  SFltb (binary_round_aux prec emax false mx ex lx) (S754_zero false) = false.
Proof.
  unfold binary_round_aux.
  destruct (shr_fexp prec emax mx ex lx) as [mrs' e'].
  destruct (shr_fexp prec emax _ e' loc_Exact) as [mrs'' e''].
  destruct (shr_m mrs'') as [ | p | p]; try reflexivity.
  destruct (e'' <=? emax - prec)%Z; reflexivity.
Qed.

(** A square root is never below zero. *)
Lemma sqrt_not_negative (x : float) : (PrimFloat.sqrt x <? 0) = false.
Proof.
  rewrite ltb_spec, sqrt_spec. change (Prim2SF 0) with (S754_zero false).
  unfold SF64sqrt, SFsqrt.
  destruct (Prim2SF x) as [s | s | | s m e]; try reflexivity.
  - now destruct s.
  - destruct s; [reflexivity | ].
    destruct (SFsqrt_core_binary prec emax (Z.pos m) e) as [[mz ez] lz].
    apply binary_round_aux_sign.
Qed.

Lemma bind_double_nan : Database.bind_double nan = None.
Proof. reflexivity. Qed.
End FloatEdge.

(** * Further properties of [get_prices] *)

Module FetchProps.
Import NormalizerFacts.
Local Open Scope Z_scope.

Lemma Subseq_refl {A : Type} (l : list A) : Subseq l l.
Proof. induction l; constructor; assumption. Qed.

Lemma Subseq_In {A : Type} (l1 l2 : list A) (x : A) :
  Subseq l1 l2 -> In x l1 -> In x l2.
Proof. induction 1; simpl; intuition. Qed.

Lemma Subseq_map {A B : Type} (f : A -> B) (l1 l2 : list A) :
  Subseq l1 l2 -> Subseq (map f l1) (map f l2).
Proof. induction 1; simpl; constructor; assumption. Qed.

Lemma Subseq_length {A : Type} (l1 l2 : list A) :
  Subseq l1 l2 -> (List.length l1 <= List.length l2)%nat.
Proof. induction 1; simpl; lia. Qed.

Lemma drop_subseq (df : DataFrame) : Subseq (drop_duplicates_last df) df.
Proof.
  induction df as [ | r df IH]; simpl; [constructor | ].
  destruct (existsb _ df); constructor; assumption.
Qed.

Lemma drop_one_per_date (df : DataFrame) (d : Z) :
  List.length (filter (fun r => date r =? d) (drop_duplicates_last df))
  = if existsb (fun r => date r =? d) df then 1%nat else 0%nat.
Proof.
  induction df as [ | r df IH]; simpl; [reflexivity | ].
  destruct (existsb (fun r' => date r' =? date r) df) eqn:Edup.
  - rewrite IH. destruct (date r =? d) eqn:Er; [ | reflexivity].
    apply Z.eqb_eq in Er. subst d. now rewrite Edup.
  - simpl. destruct (date r =? d) eqn:Er; simpl; [ | exact IH].
    apply Z.eqb_eq in Er. subst d. rewrite IH, Edup. reflexivity.
Qed.

(** X1.  Whatever the payload, the series has exactly one row for each
    calendar date on which the payload has a sample, and no row for any
    other date. *)
Theorem one_row_per_sampled_date (utc_offset : Z) (samples : list (Z * float)) (d : Z) :
  List.length (filter (fun r => date r =? d) (normalize utc_offset samples))
  = if existsb (fun s => fromtimestamp_date utc_offset (fst s) =? d) samples
    then 1%nat else 0%nat.
Proof.
  unfold normalize. rewrite drop_one_per_date.
  replace (existsb (fun r => date r =? d) (price_data utc_offset samples))
    with (existsb (fun s => fromtimestamp_date utc_offset (fst s) =? d) samples);
    [reflexivity | ].
  induction samples as [ | s samples IH]; simpl; [reflexivity | ].
  now rewrite IH.
Qed.

(** X2.  Normalisation never reorders and never invents: the series is the
    converted payload with some rows left out, the others in the order of
    the payload, so it is never longer than the payload. *)
Theorem normalize_keeps_payload_order (utc_offset : Z) (samples : list (Z * float)) :
  Subseq (normalize utc_offset samples) (price_data utc_offset samples)
  /\ (List.length (normalize utc_offset samples) <= List.length samples)%nat.
Proof.
  assert (H : Subseq (normalize utc_offset samples) (price_data utc_offset samples))
    by apply drop_subseq.
  split; [exact H | ].
  apply Subseq_length in H. unfold price_data in H.
  now rewrite length_map in H.
Qed.

(** X3.  A payload whose samples fall on pairwise different dates is stored
    whole: each sample becomes a row, in the order of the payload. *)
Theorem distinct_dates_are_all_kept (utc_offset : Z) (samples : list (Z * float)) :
  NoDup (map (fun s => fromtimestamp_date utc_offset (fst s)) samples) ->
  normalize utc_offset samples
  = map (fun s => (fromtimestamp_date utc_offset (fst s), snd s)) samples.
Proof.
  intros Hnd. apply drop_fixpoint. unfold price_data. rewrite map_map. exact Hnd.
Qed.

Lemma distinct_dates_are_all_kept_witness :
  normalize 0 [(0, 1%float); (86400000, 2%float); (172800000, 3%float)]
  = [(0, 1%float); (1, 2%float); (2, 3%float)].
Proof.
  apply (distinct_dates_are_all_kept 0
           [(0, 1%float); (86400000, 2%float); (172800000, 3%float)]).
  simpl. repeat constructor; simpl; intuition discriminate.
Defined.

Section Zone.
Variable utc_offset : Z.

Lemma fetch_lookup (reqs : list (string * response)) (prices : Dict.t DataFrame)
    (coin_name : string) :
  Dict.get coin_name (fold_left (get_prices_step utc_offset) reqs prices)
  = match last_prices coin_name reqs with
    | Some samples => Some (normalize utc_offset samples)
    | None => Dict.get coin_name prices
    end.
Proof.
  revert prices. induction reqs as [ | [c r] reqs IH]; intros prices; simpl.
  - reflexivity.
  - rewrite IH. destruct (last_prices coin_name reqs); [reflexivity | ].
    unfold get_prices_step. simpl.
    destruct r as [ | | samples]; try reflexivity.
    destruct (String.eqb coin_name c) eqn:E.
    + apply String.eqb_eq in E. subst c. apply DictFacts.get_set_same.
    + apply String.eqb_neq in E. now apply DictFacts.get_set_other.
Qed.

Lemma fetch_nodup (reqs : list (string * response)) (prices : Dict.t DataFrame) :
  NoDup (Dict.keys prices) ->
  NoDup (Dict.keys (fold_left (get_prices_step utc_offset) reqs prices)).
Proof.
  revert prices. induction reqs as [ | [c r] reqs IH]; intros prices Hnd; simpl.
  - exact Hnd.
  - apply IH. unfold get_prices_step. simpl.
    destruct r; try assumption. now apply DictFacts.set_nodup.
Qed.

Lemma get_prices_nodup (reqs : list (string * response)) :
  NoDup (Dict.keys (get_prices utc_offset reqs)).
Proof. apply fetch_nodup. constructor. Qed.
End Zone.

(** X4.  After [get_prices], the frame stored for a coin is the
    normalisation of the samples of the last reply for that coin that had a
    'prices' field: a later reply with prices overwrites an earlier one, a
    failed request or a reply without prices erases nothing, and a coin
    with no such reply has no frame. *)
Theorem stored_frame_is_last_reply
    (utc_offset : Z) (reqs : list (string * response)) (coin_name : string) :
  Dict.get coin_name (get_prices utc_offset reqs)
  = option_map (normalize utc_offset) (last_prices coin_name reqs).
Proof.
  unfold get_prices. rewrite fetch_lookup.
  now destruct (last_prices coin_name reqs).
Qed.
End FetchProps.

(** * Further properties of [analyze_trends] *)

Module TrendProps.
Import Analyzer AnalyzerFacts.
Local Open Scope float_scope.

(** The entry a frame contributes to the trends, if any. *)
Lemma loop_appends (items : list (string * DataFrame)) (trends : Dict.t Trend) :
  NoDup (map fst items) ->
  (forall k, In k (map fst items) -> ~ In k (Dict.keys trends)) ->
  fold_left analyze_step items trends
  = trends ++ flat_map (fun item => match analyze_frame (snd item) with
                                    | Some t => [(fst item, t)]
                                    | None => []
                                    end) items.
Proof.
  revert trends. induction items as [ | [c df] items IH]; intros trends Hnd Hfresh; simpl.
  - now rewrite app_nil_r.
  - inversion Hnd as [ | ? ? Hnin Hnd']; subst.
    unfold analyze_step at 2. simpl.
    destruct (analyze_frame df) as [t | ].
    + rewrite <- (app_nil_r trends) at 1.
      rewrite DictFacts.set_app_notin by (apply Hfresh; now left). simpl.
      rewrite IH; [now rewrite <- app_assoc | assumption | ].
      intros k Hk Hin. unfold Dict.keys in Hin. rewrite map_app, in_app_iff in Hin.
      destruct Hin as [Hin | [<- | []]]; [ | contradiction].
      apply (Hfresh k); [now right | exact Hin].
    + apply IH; [assumption | ]. intros k Hk. apply Hfresh. now right.
Qed.

Lemma loop_nodup (items : list (string * DataFrame)) (trends : Dict.t Trend) :
  NoDup (Dict.keys trends) ->
  NoDup (Dict.keys (fold_left analyze_step items trends)).
Proof.
  revert trends. induction items as [ | [c df] items IH]; intros trends Hnd; simpl.
  - exact Hnd.
  - apply IH. unfold analyze_step. simpl.
    destruct (analyze_frame df); [now apply DictFacts.set_nodup | assumption].
Qed.

Lemma analyze_trends_nodup (price_data : Dict.t DataFrame) :
  NoDup (Dict.keys (analyze_trends price_data)).
Proof. apply loop_nodup. constructor. Qed.

Lemma set_In {V : Type} (k k' : string) (v v' : V) (d : Dict.t V) :
  In (k, v) (Dict.set k' v' d) -> (k, v) = (k', v') \/ In (k, v) d.
Proof.
  induction d as [ | [k0 v0] d IH]; simpl.
  - intros [H | []]. now left.
  - destruct (String.eqb k' k0); simpl; intuition.
Qed.

(** Every entry of the trends is the analysis of one of the frames. *)
Lemma loop_In (items : list (string * DataFrame)) (trends : Dict.t Trend)
    (k : string) (t : Trend) :
  In (k, t) (fold_left analyze_step items trends) ->
  In (k, t) trends \/ exists df, In (k, df) items /\ analyze_frame df = Some t.
Proof.
  revert trends. induction items as [ | [c df] items IH]; intros trends H; simpl in *.
  - now left.
  - apply IH in H. destruct H as [H | (df' & Hin & Hdf)].
    + unfold analyze_step in H. simpl in H.
      destruct (analyze_frame df) as [t' | ] eqn:E; [ | now left].
      apply set_In in H. destruct H as [H | H]; [ | now left].
      inversion H; subst. right. exists df. auto.
    + right. exists df'. auto.
Qed.

(** X5.  For a dictionary of frames (its coin names are distinct), the
    trends list the coins with a non-empty frame in the order of the
    dictionary, each with the analysis of its own frame; coins with an empty
    frame leave no trace. *)
Theorem trends_follow_the_frames (price_data : Dict.t DataFrame) :
  NoDup (Dict.keys price_data) ->
  analyze_trends price_data
  = flat_map (fun item => match analyze_frame (snd item) with
                          | Some t => [(fst item, t)]
                          | None => []
                          end) price_data.
Proof.
  intros Hnd. unfold analyze_trends, Dict.items.
  rewrite loop_appends; [reflexivity | exact Hnd | ]. intros k _ [].
Qed.

Lemma trends_follow_the_frames_witness :
  analyze_trends [("empty"%string, []); ("bitcoin"%string, Samples.two_day_frame)]
  = [("bitcoin"%string, Samples.two_day_trend)].
Proof.
  rewrite (trends_follow_the_frames
             [("empty"%string, []); ("bitcoin"%string, Samples.two_day_frame)]).
  - vm_compute. reflexivity.
  - simpl. repeat constructor; simpl; intuition discriminate.
Defined.

(** X6.  The volatility of an analysed series is never below zero: it is
    0.0, a square root, or NaN. *)
Theorem volatility_never_negative (df : DataFrame) (t : Trend) :
  analyze_frame df = Some t -> (volatility t <? 0) = false.
Proof.
  intros Ht. rewrite (analyze_frame_volatility _ _ Ht).
  destruct (1 <? List.length (daily_changes (price_usd df)))%nat; [ | reflexivity].
  unfold Series_std.
  destruct (List.length (filter F.notna (daily_changes (price_usd df))) <=? 1)%nat;
    [reflexivity | ].
  apply FloatEdge.sqrt_not_negative.
Qed.

Lemma volatility_never_negative_witness :
  (volatility Samples.bitcoin_trend <? 0) = false.
Proof.
  apply (volatility_never_negative Samples.bitcoin_frame Samples.bitcoin_trend).
  vm_compute. reflexivity.
Defined.

(** X7.  A series of a single date has volatility 0.0 and a change
    percentage that is never positive, so alone it yields no
    recommendation: the change percentage is zero when the price is a
    non-zero finite number, and NaN otherwise (a price that is a zero, an
    infinity or NaN). *)
Theorem single_date_series (coin_name : string) (d : Z) (price : float) :
  exists t,
    analyze_frame [(d, price)] = Some t
    /\ volatility t = 0
    /\ (0 <? change_percentage t) = false
    /\ Recommend.recommendations [(coin_name, t)] = []
    /\ (PrimFloat.is_finite price = true -> (price =? 0) = false ->
        (change_percentage t =? 0) = true)
    /\ (PrimFloat.is_finite price = false \/ (price =? 0) = true ->
        change_percentage t = nan).
Proof.
  eexists. split; [reflexivity | ]. simpl.
  pose proof (FloatEdge.same_price_percent price) as Hcp.
  split; [reflexivity | ]. split; [exact Hcp | ].
  split; [now rewrite Hcp | ]. split.
  - apply FloatEdge.same_price_percent_zero.
  - apply FloatEdge.same_price_percent_nan.
Qed.

Lemma single_date_series_witness :
  (exists t,
      analyze_frame [(20067%Z, 97077.22)] = Some t
      /\ (change_percentage t =? 0) = true)
  /\ (exists t,
         analyze_frame [(20067%Z, 0)] = Some t
         /\ change_percentage t = nan).
Proof.
  split.
  - destruct (single_date_series "bitcoin" 20067%Z 97077.22)
      as (t & Ht & _ & _ & _ & Hz & _).
    exists t. split; [exact Ht | ].
    apply Hz; reflexivity.
  - destruct (single_date_series "bitcoin" 20067%Z 0)
      as (t & Ht & _ & _ & _ & _ & Hn).
    exists t. split; [exact Ht | ].
    apply Hn. right. reflexivity.
Defined.

(** X8.  A series that starts at price [+0.0] and ends at a positive price
    has change percentage [+infinity]; the coin is then recommended, in the
    high tier. *)
Theorem zero_start_is_recommended (coin_name : string) (d0 : Z) (rest : DataFrame) :
  (0 <? last (price_usd rest) 0) = true ->
  exists t,
    analyze_frame ((d0, 0) :: rest) = Some t
    /\ change_percentage t = infinity
    /\ Recommend.recommendations [(coin_name, t)] = [Recommend.of_trend coin_name t]
    /\ Recommend.suggestion (Recommend.of_trend coin_name t)
       = "High potential for growth!"%string.
Proof.
  intros Hlast.
  destruct (analyze_frame ((d0, 0) :: rest)) as [t | ] eqn:Ht; [ | discriminate].
  assert (Hcp : change_percentage t = infinity).
  { rewrite (analyze_frame_change _ _ Ht). unfold price_usd in *. cbn [map hd snd].
    rewrite last_cons. now apply FloatEdge.positive_over_zero_percent. }
  exists t. split; [reflexivity | ]. split; [exact Hcp | ].
  unfold Recommend.suggestion. simpl. rewrite Hcp. split; reflexivity.
Qed.

Lemma zero_start_is_recommended_witness :
  exists t,
    analyze_frame [(0%Z, 0); (1%Z, 1)] = Some t
    /\ change_percentage t = infinity
    /\ Recommend.recommendations [("zerocoin"%string, t)]
       = [Recommend.of_trend "zerocoin" t]
    /\ Recommend.suggestion (Recommend.of_trend "zerocoin" t)
       = "High potential for growth!"%string.
Proof.
  apply (zero_start_is_recommended "zerocoin" 0%Z [(1%Z, 1)]).
  reflexivity.
Defined.
End TrendProps.

(** * Further properties of [suggest_investments] *)

Module AdviceProps.
Import Recommend RecommendFacts.
Local Open Scope float_scope.

Lemma Subseq_NoDup {A : Type} (l1 l2 : list A) :
  Subseq l1 l2 -> NoDup l2 -> NoDup l1.
Proof.
  induction 1 as [ | a l1 l2 Hs IH | a l1 l2 Hs IH]; intros Hnd.
  - constructor.
  - inversion Hnd; subst. now apply IH.
  - inversion Hnd as [ | ? ? Hnin Hnd']; subst. constructor; [ | now apply IH].
    intros Hin. apply Hnin. exact (FetchProps.Subseq_In _ _ _ Hs Hin).
Qed.

Lemma get_In {V : Type} (d : Dict.t V) (k : string) (v : V) :
  NoDup (Dict.keys d) -> In (k, v) d -> Dict.get k d = Some v.
Proof.
  induction d as [ | [k0 v0] d IH]; simpl; intros Hnd Hin; [contradiction | ].
  inversion Hnd as [ | ? ? Hnin Hnd']; subst.
  destruct Hin as [Heq | Hin].
  - inversion Heq; subst. now rewrite String.eqb_refl.
  - destruct (String.eqb k k0) eqn:E; [ | now apply IH].
    apply String.eqb_eq in E. subst k0. exfalso. apply Hnin.
    change k with (fst (k, v)). now apply in_map.
Qed.

Lemma recommendations_subseq (trends : Dict.t Trend) :
  Subseq (map Rec.coin (recommendations trends)) (Dict.keys trends).
Proof.
  induction trends as [ | [c t] trends IH]; simpl; [constructor | ].
  destruct (0 <? change_percentage t); simpl; constructor; exact IH.
Qed.

(** X9.  The recommendations name coins of the trends mapping in the order
    of the mapping, each at most as often as the mapping does; they are
    never sorted by magnitude. *)
Theorem recommendations_keep_mapping_order (trends : Dict.t Trend) :
  Subseq (map Rec.coin (recommendations trends)) (Dict.keys trends)
  /\ (List.length (recommendations trends) <= List.length trends)%nat.
Proof.
  split; [apply recommendations_subseq | ].
  pose proof (FetchProps.Subseq_length _ _ (recommendations_subseq trends)) as H.
  unfold Dict.keys in H. now rewrite !length_map in H.
Qed.

(** X10.  In what [suggest_investments] returns, no coin is recommended
    twice, and the numbers of each recommendation are those stored for its
    coin in the returned trends. *)
Theorem recommendations_agree_with_trends
    (utc_offset : Z) (reqs : list (string * response)) :
  NoDup (map Rec.coin (snd (suggest_investments utc_offset reqs)))
  /\ (forall rec,
         In rec (snd (suggest_investments utc_offset reqs)) ->
         Dict.get (Rec.coin rec) (fst (suggest_investments utc_offset reqs))
         = Some (mkTrend (Rec.change_percentage rec) (Rec.volatility rec)
                   (Rec.average_price rec))).
Proof.
  unfold suggest_investments. simpl.
  set (trends := Analyzer.analyze_trends (get_prices utc_offset reqs)).
  assert (Hnd : NoDup (Dict.keys trends)) by apply TrendProps.analyze_trends_nodup.
  split.
  - exact (Subseq_NoDup _ _ (recommendations_subseq trends) Hnd).
  - intros rec Hin. apply recommendations_In in Hin.
    destruct Hin as (c & t & Hin & _ & ->). simpl.
    rewrite (get_In trends c t Hnd Hin). now destruct t.
Qed.

(** X11.  A coin is recommended only if the frame stored for it has rows
    for at least two dates. *)
Theorem recommended_coin_has_two_dates
    (utc_offset : Z) (reqs : list (string * response)) (rec : Rec.t) :
  In rec (snd (suggest_investments utc_offset reqs)) ->
  exists df,
    Dict.get (Rec.coin rec) (get_prices utc_offset reqs) = Some df
    /\ (2 <= List.length df)%nat.
Proof.
  unfold suggest_investments. simpl. intros Hin.
  apply recommendations_In in Hin. destruct Hin as (c & t & Hin & Hpos & ->). simpl.
  unfold Analyzer.analyze_trends in Hin.
  apply TrendProps.loop_In in Hin. destruct Hin as [[] | (df & Hdf & Ht)].
  exists df. split.
  - apply get_In; [apply FetchProps.get_prices_nodup | exact Hdf].
  - destruct df as [ | [d p] [ | r df]]; simpl; try lia.
    + discriminate.
    + injection Ht as <-. simpl in Hpos.
      rewrite FloatEdge.same_price_percent in Hpos. discriminate.
Qed.

Lemma recommended_coin_has_two_dates_witness :
  exists df,
    Dict.get "zerocoin"%string
      (get_prices 0 [("zerocoin"%string, Prices [(0%Z, 0); (86400000%Z, 1)])])
    = Some df
    /\ (2 <= List.length df)%nat.
Proof.
  apply (recommended_coin_has_two_dates 0
           [("zerocoin"%string, Prices [(0%Z, 0); (86400000%Z, 1)])]
           (Rec.mk "zerocoin" infinity 0 0.5)).
  vm_compute. left. reflexivity.
Defined.
End AdviceProps.

(** * Properties of the persistence layer *)

Module StorageProps.
Import Database.
Local Open Scope Z_scope.

Lemma max_rowid (n s : nat) :
  fold_right Z.max 0 (map Z.of_nat (seq s n))
  = match n with O => 0 | S _ => Z.of_nat (s + n - 1) end.
Proof.
  revert s. induction n as [ | n IH]; intros s; simpl; [reflexivity | ].
  rewrite IH. destruct n; lia.
Qed.

Lemma next_rowid_rowids (n : nat) : next_rowid (rowids n) = Z.of_nat (S n).
Proof.
  unfold next_rowid, rowids. rewrite max_rowid. destruct n; lia.
Qed.

Lemma rowids_S (n : nat) : rowids (S n) = rowids n ++ [Z.of_nat (S n)].
Proof. unfold rowids. now rewrite seq_S, map_app. Qed.

(** Inserting the rows of one frame. *)
Lemma insert_frame (coin_name : string) (df : DataFrame) (rows : list price_row) :
  map price_id rows = rowids (List.length rows) ->
  map price_values (fold_left (insert_price coin_name) df rows)
  = map price_values rows
    ++ map (fun r => (coin_name, date r, bind_double (snd r))) df
  /\ map price_id (fold_left (insert_price coin_name) df rows)
     = rowids (List.length (fold_left (insert_price coin_name) df rows)).
Proof.
  revert rows. induction df as [ | r df IH]; intros rows Hids; simpl.
  - now rewrite app_nil_r.
  - destruct (IH (insert_price coin_name rows r)) as [Hv Hi].
    + unfold insert_price. rewrite map_app, length_app, Hids, next_rowid_rowids.
      simpl. rewrite Nat.add_1_r. now rewrite rowids_S.
    + split; [ | exact Hi].
      rewrite Hv. unfold insert_price. rewrite map_app, <- app_assoc. reflexivity.
Qed.

Lemma insert_frames (items : list (string * DataFrame)) (rows : list price_row) :
  map price_id rows = rowids (List.length rows) ->
  let rows' :=
    fold_left (fun rows item => fold_left (insert_price (fst item)) (snd item) rows)
      items rows in
  map price_values rows'
  = map price_values rows
    ++ flat_map (fun item =>
                   map (fun r => (fst item, date r, bind_double (snd r))) (snd item))
         items
  /\ map price_id rows' = rowids (List.length rows').
Proof.
  revert rows. induction items as [ | [c df] items IH]; intros rows Hids; simpl.
  - now rewrite app_nil_r.
  - destruct (insert_frame c df rows Hids) as [Hv Hi].
    destruct (IH _ Hi) as [Hv' Hi']. simpl in Hv', Hi'.
    split; [ | exact Hi'].
    now rewrite Hv', Hv, <- app_assoc.
Qed.

Lemma insert_trends (items : list (string * Trend)) (rows : list trend_row) :
  map trend_id rows = rowids (List.length rows) ->
  map trend_values (fold_left insert_trend items rows)
  = map trend_values rows
    ++ map (fun item => (fst item, bind_double (change_percentage (snd item)),
                         bind_double (volatility (snd item)))) items
  /\ map trend_id (fold_left insert_trend items rows)
     = rowids (List.length (fold_left insert_trend items rows)).
Proof.
  revert rows. induction items as [ | item items IH]; intros rows Hids; simpl.
  - now rewrite app_nil_r.
  - destruct (IH (insert_trend rows item)) as [Hv Hi].
    + unfold insert_trend. rewrite map_app, length_app, Hids, next_rowid_rowids.
      simpl. rewrite Nat.add_1_r. now rewrite rowids_S.
    + split; [ | exact Hi].
      rewrite Hv. unfold insert_trend. rewrite map_app, <- app_assoc. reflexivity.
Qed.

Lemma bind_double_notna (x y : float) :
  bind_double x = Some y -> F.notna y = true.
Proof.
  unfold bind_double, F.notna. destruct (PrimFloat.is_nan x) eqn:E; [discriminate | ].
  destruct (PrimFloat.eqb x 0); intros H; injection H as <-.
  - reflexivity.
  - now rewrite E.
Qed.

(** X12.  When [save_prices_db] succeeds, the table [prices] holds
    exactly one row per row of the frames, coin by coin in the order of the
    dictionary and row by row in the order of each frame, numbered 1, 2, ...;
    what the table held before is gone, and the table [trends] is
    untouched. *)
Theorem saved_prices_table (prices_data : Dict.t DataFrame) (d d' : db) :
  save_prices_db prices_data d = Some d' ->
  exists rows,
    prices d' = Some rows
    /\ map price_values rows
       = flat_map (fun item =>
                     map (fun r => (fst item, date r, bind_double (snd r))) (snd item))
           prices_data
    /\ map price_id rows = rowids (List.length rows)
    /\ trends d' = trends d.
Proof.
  unfold save_prices_db. destruct (prices d); [ | discriminate].
  intros H. injection H as <-. simpl.
  exists (prices_rows prices_data). split; [reflexivity | ].
  destruct (insert_frames prices_data [] eq_refl) as [Hv Hi].
  repeat split; assumption.
Qed.

Lemma saved_prices_table_witness :
  exists rows,
    Some (prices_rows [("bitcoin"%string, Samples.two_day_frame)]) = Some rows
    /\ map price_values rows
       = [("bitcoin"%string, 20067, Some 97077.22%float);
          ("bitcoin"%string, 20068, Some 99807.41%float)]
    /\ map price_id rows = rowids (List.length rows)
    /\ Some [] = Some (@nil trend_row).
Proof.
  apply (saved_prices_table [("bitcoin"%string, Samples.two_day_frame)]
           (create_databases no_tables)
           (mkDb (Some (prices_rows [("bitcoin"%string, Samples.two_day_frame)]))
              (Some []))).
  reflexivity.
Defined.

(** X13.  When [save_trends_db] succeeds, the table [trends] holds one
    row per coin of the trends, in their order, numbered 1, 2, ..., with the
    change percentage and the volatility but not the average price; a NaN is
    stored as NULL, so no stored number is NaN; the table [prices] is
    untouched. *)
Theorem saved_trends_table (trends_data : Dict.t Trend) (d d' : db) :
  save_trends_db trends_data d = Some d' ->
  exists rows,
    trends d' = Some rows
    /\ map trend_values rows
       = map (fun item => (fst item, bind_double (change_percentage (snd item)),
                           bind_double (volatility (snd item)))) trends_data
    /\ map trend_id rows = rowids (List.length rows)
    /\ (forall row x,
           In row rows ->
           trend_change_percentage row = Some x \/ trend_volatility row = Some x ->
           F.notna x = true)
    /\ prices d' = prices d.
Proof.
  unfold save_trends_db. destruct (trends d); [ | discriminate].
  intros H. injection H as <-. simpl.
  exists (trends_rows trends_data). split; [reflexivity | ].
  destruct (insert_trends trends_data [] eq_refl) as [Hv Hi].
  split; [exact Hv | ]. split; [exact Hi | ]. split; [ | reflexivity].
  intros row x Hin Hx.
  apply (in_map trend_values) in Hin. unfold trends_rows, Dict.items in Hin.
  rewrite Hv in Hin. simpl in Hin. apply in_map_iff in Hin.
  destruct Hin as ([c t] & Heq & _). unfold trend_values in Heq. simpl in Heq.
  injection Heq as _ Hcp Hvol.
  destruct Hx as [Hx | Hx].
  - rewrite Hx in Hcp. exact (bind_double_notna _ _ Hcp).
  - rewrite Hx in Hvol. exact (bind_double_notna _ _ Hvol).
Qed.

Lemma saved_trends_table_witness :
  exists rows,
    Some (trends_rows [("void"%string, mkTrend nan 0 0)]) = Some rows
    /\ map trend_values rows = [("void"%string, None, Some 0%float)]
    /\ map trend_id rows = rowids (List.length rows)
    /\ (forall row x,
           In row rows ->
           trend_change_percentage row = Some x \/ trend_volatility row = Some x ->
           F.notna x = true)
    /\ Some [] = Some (@nil price_row).
Proof.
  apply (saved_trends_table [("void"%string, mkTrend nan 0 0)]
           (create_databases no_tables)
           (mkDb (Some []) (Some (trends_rows [("void"%string, mkTrend nan 0 0)])))).
  reflexivity.
Defined.
End StorageProps.

(** * What the fetched data leaves in the database *)

Module ScriptProps.
Import Database.
Local Open Scope Z_scope.

Lemma set_Forall {V : Type} (P : string * V -> Prop) (k : string) (v : V) (d : Dict.t V) :
  Forall P d -> P (k, v) -> Forall P (Dict.set k v d).
Proof.
  induction d as [ | [k0 v0] d IH]; simpl; intros Hd Hkv.
  - now constructor.
  - inversion Hd; subst. destruct (String.eqb k k0); constructor; auto.
Qed.

(** Every stored frame has one row per date. *)
Lemma stored_frames_unique_dates (utc_offset : Z) (reqs : list (string * response)) :
  Forall (fun item => NoDup (map date (snd item))) (get_prices utc_offset reqs).
Proof.
  unfold get_prices.
  assert (H : forall acc : Dict.t DataFrame,
             Forall (fun item => NoDup (map date (snd item))) acc ->
             Forall (fun item => NoDup (map date (snd item)))
               (fold_left (get_prices_step utc_offset) reqs acc)).
  { induction reqs as [ | [c r] reqs IH]; intros acc Hacc; simpl; [exact Hacc | ].
    apply IH. unfold get_prices_step. simpl.
    destruct r; try assumption.
    apply set_Forall; [assumption | ]. simpl. apply NormalizerFacts.drop_nodup. }
  apply H. constructor.
Qed.

Lemma pair_nodup (c : string) (ds : list Z) :
  NoDup ds -> NoDup (map (fun x => (c, x)) ds).
Proof.
  induction 1 as [ | x ds Hnin Hnd IH]; simpl; constructor; [ | exact IH].
  rewrite in_map_iff. intros (y & Heq & Hin). inversion Heq; subst. contradiction.
Qed.

Lemma keyed_pairs (items : list (string * DataFrame)) :
  NoDup (map fst items) ->
  Forall (fun item => NoDup (map date (snd item))) items ->
  NoDup (flat_map (fun item => map (fun r => (fst item, date r)) (snd item)) items).
Proof.
  induction items as [ | [c df] items IH]; simpl; intros Hnd Hall; [constructor | ].
  inversion Hnd as [ | ? ? Hnin Hnd']; subst. inversion Hall as [ | ? ? Hdf Hall']; subst.
  apply NoDup_app.
  - simpl in Hdf. rewrite <- (map_map date (fun x => (c, x))). now apply pair_nodup.
  - now apply IH.
  - intros [c' x] Hin1 Hin2. apply in_map_iff in Hin1. destruct Hin1 as (r & Heq & _).
    inversion Heq; subst. apply in_flat_map in Hin2.
    destruct Hin2 as ([c2 df2] & Hitem & Hin2). simpl in Hin2.
    apply in_map_iff in Hin2. destruct Hin2 as (r2 & Heq2 & _).
    inversion Heq2; subst. apply Hnin.
    change c' with (fst (c', df2)). now apply in_map.
Qed.

Lemma prices_rows_keys (prices_data : Dict.t DataFrame) :
  map (fun r => (price_coin_name r, price_date r)) (prices_rows prices_data)
  = flat_map (fun item => map (fun r => (fst item, date r)) (snd item)) prices_data.
Proof.
  destruct (StorageProps.insert_frames prices_data [] eq_refl) as [Hv _].
  simpl in Hv.
  transitivity (map (fun v : string * Z * real => (fst (fst v), snd (fst v)))
                  (map price_values (prices_rows prices_data))).
  - rewrite map_map. reflexivity.
  - unfold prices_rows, Dict.items. rewrite Hv. clear Hv.
    induction prices_data as [ | [c df] items IH]; simpl; [reflexivity | ].
    rewrite map_app, IH, map_map. reflexivity.
Qed.

Lemma trends_rows_names (trends_data : Dict.t Trend) :
  map trend_coin_name (trends_rows trends_data) = Dict.keys trends_data.
Proof.
  destruct (StorageProps.insert_trends trends_data [] eq_refl) as [Hv _].
  simpl in Hv.
  transitivity (map (fun v : string * real * real => fst (fst v))
                  (map trend_values (trends_rows trends_data))).
  - rewrite map_map. reflexivity.
  - unfold trends_rows, Dict.items. rewrite Hv, map_map. reflexivity.
Qed.

(** X14.  When the trends that [suggest_investments] returned and the
    frames that [get_prices] stored are saved, in the order of the main
    script and both saves succeeding, both tables are present: in [prices]
    no two rows share coin name and date, and in [trends] no two rows share
    a coin name. *)
Theorem saved_tables_are_keyed
    (utc_offset : Z) (reqs : list (string * response)) (d d1 d2 : db) :
  save_trends_db (fst (Recommend.suggest_investments utc_offset reqs)) d = Some d1 ->
  save_prices_db (get_prices utc_offset reqs) d1 = Some d2 ->
  exists rows trows,
    prices d2 = Some rows
    /\ trends d2 = Some trows
    /\ NoDup (map (fun r => (price_coin_name r, price_date r)) rows)
    /\ NoDup (map trend_coin_name trows).
Proof.
  unfold save_trends_db, save_prices_db.
  destruct (trends d); [ | discriminate]. intros H1. injection H1 as <-. simpl.
  destruct (prices d); [ | discriminate]. intros H2. injection H2 as <-. simpl.
  exists (prices_rows (get_prices utc_offset reqs)).
  exists (trends_rows (Analyzer.analyze_trends (get_prices utc_offset reqs))).
  split; [reflexivity | ]. split; [reflexivity | ]. split.
  - rewrite prices_rows_keys. apply keyed_pairs.
    + apply FetchProps.get_prices_nodup.
    + apply stored_frames_unique_dates.
  - rewrite trends_rows_names. apply TrendProps.analyze_trends_nodup.
Qed.

Lemma saved_tables_are_keyed_witness :
  exists rows trows,
    Some (prices_rows (get_prices 0 [("bitcoin"%string, Prices Samples.bitcoin_payload)]))
    = Some rows
    /\ Some (trends_rows
               (fst (Recommend.suggest_investments 0
                       [("bitcoin"%string, Prices Samples.bitcoin_payload)])))
       = Some trows
    /\ NoDup (map (fun r => (price_coin_name r, price_date r)) rows)
    /\ NoDup (map trend_coin_name trows).
Proof.
  apply (saved_tables_are_keyed 0
           [("bitcoin"%string, Prices Samples.bitcoin_payload)]
           (create_databases no_tables)
           (mkDb (Some [])
              (Some (trends_rows
                       (fst (Recommend.suggest_investments 0
                               [("bitcoin"%string, Prices Samples.bitcoin_payload)])))))
           (mkDb (Some (prices_rows
                          (get_prices 0 [("bitcoin"%string, Prices Samples.bitcoin_payload)])))
              (Some (trends_rows
                       (fst (Recommend.suggest_investments 0
                               [("bitcoin"%string, Prices Samples.bitcoin_payload)])))))).
  - reflexivity.
  - reflexivity.
Defined.
End ScriptProps.
